(** * Options trading risk tool: risk metrics and trade history

    A shallow embedding of [options_risk_tool.py].  The script is a Streamlit
    page: every user interaction reruns it from top to bottom, the sidebar
    widgets supply the trade parameters, and [st.session_state] is the only
    object that survives from one rerun to the next.

    Numbers.  The sidebar yields Python floats (and one int, the number of
    contracts).  They are modelled as exact rationals [Q]: the arithmetic of
    the script is embedded operator by operator, but rounding, overflow and
    NaN of binary64 are outside the model.  [float('inf')] is a value of its
    own ([PosInf]).  Division is the one operator of the script that can
    raise, and it is modelled as such ([py_div]).  The statements proved on
    this model are those that rounding keeps: which branch is taken, which
    operation raises, the sign and the order of results.  Where a rounded
    result matters, lines 55-56 are embedded a second time on binary64
    itself ([Binary64]). *)

From Stdlib Require Import QArith Qminmax Lqa ZArith Sorted.
From Stdlib Require PrimFloat.
From stdpp Require Import gmap strings list fin_maps.

Local Open Scope Q_scope.

(** ** Python values and exceptions *)

Inductive exn : Type :=
  | ZeroDivisionError.

Inductive result (A : Type) : Type :=
  | Ok (a : A)
  | Raise (e : exn).

Arguments Ok {A} a.
Arguments Raise {A} e.

(** Sequencing: an exception of the first statement skips the rest. *)
#[export] Instance result_bind : MBind result :=
  fun A B (k : A -> result B) (r : result A) =>
    match r with
    | Ok a => k a
    | Raise e => Raise e
    end.

Definition returns {A : Type} (r : result A) : Prop := exists a, r = Ok a.

(** A number as [calculate_risk_reward] returns it: a finite one (the int [0]
    and the float [0.0] are not told apart) or [float('inf')]. *)
Inductive number : Type :=
  | Fin (q : Q)
  | PosInf.

(** [x < y] on finite numbers, as a boolean. *)
Definition Qltb (x y : Q) : bool :=
  match x ?= y with
  | Lt => true
  | _ => false
  end.

(** [x / y]: Python raises [ZeroDivisionError] on a zero divisor. *)
Definition py_div (x y : Q) : result Q :=
  if Qeq_bool y 0 then Raise ZeroDivisionError else Ok (x / y).

(** [min(a, b)] of the builtins: [b] is taken only when it is strictly
    smaller, so the first argument wins a tie. *)
Definition py_min (a b : Q) : Q :=
  if Qltb b a then b else a.

(** ** The two helper functions (lines 12-27) *)

(** [calculate_greeks]: the returned dict, as a finite map on its keys. *)
Definition calculate_greeks (option_type : string)
    (stock_price strike_price time_to_expiry volatility interest_rate : Q)
    : gmap string Q :=
  let delta := if String.eqb option_type "Call" then 0.5 else -0.5 in
  let gamma := 0.1 in
  let theta := -0.01 * time_to_expiry in
  let vega := 0.2 * volatility in
  let rho := 0.05 * interest_rate in
  <["Delta" := delta]> (<["Gamma" := gamma]> (<["Theta" := theta]>
    (<["Vega" := vega]> (<["Rho" := rho]> ∅)))).

(** [calculate_risk_reward].  The conditional expression of the last line
    evaluates [reward / risk] only in its [risk > 0] branch. *)
Definition calculate_risk_reward (entry_price target_price stop_loss_price : Q)
    : result number :=
  if Qeq_bool entry_price 0 || Qeq_bool (target_price - entry_price) 0 then
    Ok (Fin 0)
  else
    let risk := entry_price - stop_loss_price in
    let reward := target_price - entry_price in
    if Qltb 0 risk then q ← py_div reward risk; Ok (Fin q)
    else Ok PosInf.

(** ** Position sizing (lines 55-56) *)

Definition max_risk (total_capital risk_tolerance : Q) : Q :=
  total_capital * risk_tolerance.

Definition position_size (total_capital risk_tolerance entry_price
    stop_loss_price : Q) (contracts : Z) : result Q :=
  from_risk ← py_div (max_risk total_capital risk_tolerance)
                     (entry_price - stop_loss_price);
  Ok (py_min from_risk (inject_Z contracts * 100 * entry_price)).

(** ** One rerun of the script *)

(** The values of the sidebar widgets (lines 34-52), as the widgets return
    them: the three percentages are divided by 100 by the script itself. *)
Record trade_inputs : Type := {
  option_type : string;
  underlying_asset : string;
  stock_price : Q;
  strike_price : Q;
  expiration_date : Z;          (* a calendar date, as a day number *)
  volatility_pct : Q;
  interest_rate_pct : Q;
  entry_price : Q;
  contracts : Z;
  stop_loss_price : Q;
  take_profit_price : Q;
  total_capital : Q;
  risk_tolerance_pct : Q;
  asset_class : string;
  geographic_region : string
}.

(** What a rerun reads from outside the widgets: the calendar day of
    [datetime.today()], whether "Save Trade" was clicked, and, when a trade is
    saved, the results of [uuid.uuid4()] and [datetime.now()]. *)
Record env : Type := {
  today : Z;
  save_trade : bool;
  uuid4 : string;
  now : Z
}.

(** Line 39: a day count divided by [365.0]. *)
Definition time_to_expiry (i : trade_inputs) (e : env) : Q :=
  inject_Z (expiration_date i - today e) / 365.

Definition volatility (i : trade_inputs) : Q := volatility_pct i / 100.
Definition interest_rate (i : trade_inputs) : Q := interest_rate_pct i / 100.
Definition risk_tolerance (i : trade_inputs) : Q := risk_tolerance_pct i / 100.

(** The figures of the "Risk Analysis" part of the page (lines 55-75). *)
Record risk_report : Type := {
  greeks : gmap string Q;
  risk_reward_ratio : number;
  position_size_dollars : Q;
  position_size_contracts : Q;
  max_risk_dollars : Q;
  time_to_expiry_years : Q
}.

(** Lines 55-75.  Line 73 divides the position size by [100 * entry_price] to
    print it in contracts; the remaining lines up to 101 only draw. *)
Definition risk_analysis (i : trade_inputs) (e : env) : result risk_report :=
  size ← position_size (total_capital i) (risk_tolerance i) (entry_price i)
                       (stop_loss_price i) (contracts i);
  let g := calculate_greeks (option_type i) (stock_price i) (strike_price i)
             (time_to_expiry i e) (volatility i) (interest_rate i) in
  ratio ← calculate_risk_reward (entry_price i) (take_profit_price i)
                                (stop_loss_price i);
  in_contracts ← py_div size (100 * entry_price i);
  Ok {| greeks := g;
        risk_reward_ratio := ratio;
        position_size_dollars := size;
        position_size_contracts := in_contracts;
        max_risk_dollars := max_risk (total_capital i) (risk_tolerance i);
        time_to_expiry_years := time_to_expiry i e |}.

(** ** The trade history (lines 104-124) *)

(** The dict built at lines 107-116. *)
Record trade : Type := {
  trade_id : string;
  asset : string;
  trade_option_type : string;
  trade_strike_price : Q;
  trade_entry_price : Q;
  trade_position_size : Q;
  risk_to_reward : number;
  date : Z
}.

Definition make_trade (i : trade_inputs) (e : env) (r : risk_report) : trade :=
  {| trade_id := uuid4 e;
     asset := underlying_asset i;
     trade_option_type := option_type i;
     trade_strike_price := strike_price i;
     trade_entry_price := entry_price i;
     trade_position_size := position_size_dollars r;
     risk_to_reward := risk_reward_ratio r;
     date := now e |}.

(** The list stored under [st.session_state.trade_history], and [[]] while
    the key is unset.  The script reads the attribute at lines 117 and 122
    only, after line 105 has set the key; statements about what a session
    stores are made on the lookup of the key itself. *)
Definition trade_history (ss : gmap string (list trade)) : list trade :=
  default [] (ss !! "trade_history").

(** Lines 104-105. *)
Definition init_history (ss : gmap string (list trade))
    : gmap string (list trade) :=
  match ss !! "trade_history" with
  | Some _ => ss
  | None => <["trade_history" := []]> ss
  end.

(** Lines 106-118: [append] mutates the list held by the session state. *)
Definition save (i : trade_inputs) (e : env) (r : risk_report)
    (ss : gmap string (list trade)) : gmap string (list trade) :=
  if save_trade e then
    <["trade_history" := trade_history ss ++ [make_trade i e r]]> ss
  else ss.

(** Lines 122-124: the table shown under "Trade History", if any. *)
Definition shown_history (ss : gmap string (list trade))
    : option (list trade) :=
  match trade_history ss with
  | [] => None
  | h => Some h
  end.

Record page : Type := {
  report : risk_report;
  history_table : option (list trade)
}.

Definition report_of (out : result page) : result risk_report :=
  match out with
  | Ok p => Ok (report p)
  | Raise x => Raise x
  end.

(** One rerun from a session state: the new session state and what the
    rerun produced.  An exception of lines 55-75 ends the rerun before the
    session state is touched. *)
Definition run (i : trade_inputs) (e : env) (ss : gmap string (list trade))
    : gmap string (list trade) * result page :=
  match risk_analysis i e with
  | Raise x => (ss, Raise x)
  | Ok r =>
      let ss' := save i e r (init_history ss) in
      (ss', Ok {| report := r; history_table := shown_history ss' |})
  end.

(** A session: reruns one after the other on the same session state. *)
Fixpoint run_all (rs : list (trade_inputs * env))
    (ss : gmap string (list trade)) : gmap string (list trade) :=
  match rs with
  | [] => ss
  | (i, e) :: rs' => run_all rs' (fst (run i e ss))
  end.

(** The reruns of a session that reach line 108 and save a trade. *)
Definition saves (r : trade_inputs * env) : bool :=
  match risk_analysis (fst r) (snd r) with
  | Ok _ => save_trade (snd r)
  | Raise _ => false
  end.

(** The trade such a rerun builds. *)
Definition saved_trade (r : trade_inputs * env) : list trade :=
  match risk_analysis (fst r) (snd r) with
  | Ok rep => if save_trade (snd r) then [make_trade (fst r) (snd r) rep] else []
  | Raise _ => []
  end.


(** The day and time of the reruns of a session that save a trade. *)
Definition drawn_dates (rs : list (trade_inputs * env)) : list Z :=
  map (fun r => now (snd r)) (filter (fun r => saves r = true) rs).


(** ** Lines 55-56 in binary64

    The same two lines with every operator read as the operator of Python's
    float, IEEE 754 binary64 with rounding to nearest: here a product or a
    quotient too small for the format becomes a zero that keeps its sign. *)

Module Binary64.

Import PrimFloat.
Local Open Scope float_scope.








End Binary64.

(** ** A sample session

    The inputs are the default values of the widgets; they are used to
    evaluate the statements below on a concrete session. *)

Definition inputs_with_stop (stop : Q) : trade_inputs :=
  {| option_type := "Call";
     underlying_asset := "SPY";
     stock_price := 100;
     strike_price := 100;
     expiration_date := 365;
     volatility_pct := 20;
     interest_rate_pct := 5;
     entry_price := 5;
     contracts := 1;
     stop_loss_price := stop;
     take_profit_price := 8;
     total_capital := 10000;
     risk_tolerance_pct := 1;
     asset_class := "Stocks";
     geographic_region := "US" |}.

Definition default_inputs : trade_inputs := inputs_with_stop 3.

(** A rerun in which "Save Trade" was clicked, and one in which it was not. *)
Definition click (id : string) (time : Z) : env :=
  {| today := 0; save_trade := true; uuid4 := id; now := time |}.

Definition idle : env :=
  {| today := 0; save_trade := false; uuid4 := ""; now := 0 |}.

(** A free option: the entry price is zero. *)
Definition free_inputs : trade_inputs :=
  {| option_type := "Put";
     underlying_asset := "QQQ";
     stock_price := 100;
     strike_price := 90;
     expiration_date := 30;
     volatility_pct := 20;
     interest_rate_pct := 5;
     entry_price := 0;
     contracts := 2;
     stop_loss_price := 3;
     take_profit_price := 8;
     total_capital := 10000;
     risk_tolerance_pct := 1;
     asset_class := "ETFs";
     geographic_region := "US" |}.

(** Two saved trades, a rerun that only redraws the page, and a click on
    "Save Trade" while the stop-loss equals the entry price. *)
Definition sample_session : list (trade_inputs * env) :=
  [ (default_inputs, click "6f1c" 1);
    (default_inputs, idle);
    (inputs_with_stop 5, click "03aa" 2);
    (inputs_with_stop 4, click "b2e7" 3) ].


(** ** Arithmetic of the embedding *)

Section Arithmetic.

Lemma Qltb_lt (x y : Q) : Qltb x y = true <-> x < y.
Proof.
  unfold Qltb. rewrite Qlt_alt.
  destruct (x ?= y); split; congruence.
Qed.

Lemma Qltb_ge (x y : Q) : Qltb x y = false <-> y <= x.
Proof.
  rewrite <- not_true_iff_false, Qltb_lt. split.
  - apply Qnot_lt_le.
  - apply Qle_not_lt.
Qed.

Lemma py_div_defined (x y : Q) : ~ y == 0 -> py_div x y = Ok (x / y).
Proof.
  intros Hy. unfold py_div.
  destruct (Qeq_bool y 0) eqn:E; [| reflexivity].
  apply Qeq_bool_iff in E. contradiction.
Qed.

Lemma py_div_by_zero (x y : Q) : y == 0 -> py_div x y = Raise ZeroDivisionError.
Proof.
  intros Hy. unfold py_div.
  apply Qeq_bool_iff in Hy. now rewrite Hy.
Qed.

Lemma py_min_Qmin (a b : Q) : py_min a b == Qmin a b.
Proof.
  unfold py_min. destruct (Qltb b a) eqn:E.
  - apply Qltb_lt in E. symmetry. apply Q.min_r. lra.
  - apply Qltb_ge in E. symmetry. now apply Q.min_l.
Qed.

Lemma py_min_le_l (a b : Q) : py_min a b <= a.
Proof.
  unfold py_min. destruct (Qltb b a) eqn:E.
  - apply Qltb_lt in E. lra.
  - lra.
Qed.


Lemma Qdiv_neg_pos (x y : Q) : x < 0 -> 0 < y -> x / y < 0.
Proof.
  intros Hx Hy. apply Qlt_shift_div_r; lra.
Qed.

End Arithmetic.

(** ** The risk-to-reward ratio *)

Section RiskReward.

Variables entry target stop : Q.

Lemma risk_reward_guard :
  entry == 0 \/ target - entry == 0 ->
  calculate_risk_reward entry target stop = Ok (Fin 0).
Proof.
  intros H. unfold calculate_risk_reward.
  destruct H as [H | H]; apply Qeq_bool_iff in H; rewrite H.
  - reflexivity.
  - now rewrite orb_true_r.
Qed.

Lemma risk_reward_past_guard :
  ~ entry == 0 -> ~ target - entry == 0 ->
  calculate_risk_reward entry target stop =
    if Qltb 0 (entry - stop)
    then Ok (Fin ((target - entry) / (entry - stop)))
    else Ok PosInf.
Proof.
  intros He Hr. unfold calculate_risk_reward.
  destruct (Qeq_bool entry 0) eqn:E0.
  { apply Qeq_bool_iff in E0. contradiction. }
  destruct (Qeq_bool (target - entry) 0) eqn:E.
  { apply Qeq_bool_iff in E. contradiction. }
  cbn [orb]. destruct (Qltb 0 (entry - stop)) eqn:L; [| reflexivity].
  apply Qltb_lt in L. rewrite py_div_defined by lra. reflexivity.
Qed.

End RiskReward.

(** C1: [calculate_risk_reward] returns 0 when the entry price or the reward
    is zero, whatever the risk; otherwise it returns reward / risk when the
    risk is positive, and infinity when the risk is zero or negative. *)
Theorem calculate_risk_reward_cases (entry_price target_price stop_loss_price : Q) :
  let risk := entry_price - stop_loss_price in
  let reward := target_price - entry_price in
  let ratio := calculate_risk_reward entry_price target_price stop_loss_price in
  (entry_price == 0 \/ reward == 0 -> ratio = Ok (Fin 0)) /\
  (~ entry_price == 0 -> ~ reward == 0 -> 0 < risk ->
     ratio = Ok (Fin (reward / risk))) /\
  (~ entry_price == 0 -> ~ reward == 0 -> risk <= 0 -> ratio = Ok PosInf) /\
  (reward == 0 -> risk <= 0 -> ratio = Ok (Fin 0)).
Proof.
  cbv zeta. repeat split.
  - apply risk_reward_guard.
  - intros He Hr Hk. rewrite risk_reward_past_guard by assumption.
    apply Qltb_lt in Hk. now rewrite Hk.
  - intros He Hr Hk. rewrite risk_reward_past_guard by assumption.
    apply Qltb_ge in Hk. now rewrite Hk.
  - intros Hr _. apply risk_reward_guard. now right.
Qed.

(** The three evaluations of the ratio listed with the testable properties:
    entry = target, a positive risk, and a stop above the entry. *)
Lemma calculate_risk_reward_examples :
  calculate_risk_reward 5 5 3 = Ok (Fin 0) /\
  calculate_risk_reward 5 8 3 = Ok (Fin ((8 - 5) / (5 - 3))) /\
  (8 - 5) / (5 - 3) == 1.5 /\
  calculate_risk_reward 5 8 6 = Ok PosInf.
Proof.
  destruct (calculate_risk_reward_cases 5 5 3) as (H0 & _).
  destruct (calculate_risk_reward_cases 5 8 3) as (_ & H1 & _).
  destruct (calculate_risk_reward_cases 5 8 6) as (_ & _ & H2 & _).
  split; [| split; [| split]].
  - apply H0. right. reflexivity.
  - apply H1; [discriminate | discriminate | reflexivity].
  - reflexivity.
  - apply H2; [discriminate | discriminate | discriminate].
Defined.

(** C9: with a positive entry price, a target below the entry and a stop
    below the entry, the ratio is the negative reward over the positive risk,
    a strictly negative number; nothing clamps it at zero. *)
Theorem calculate_risk_reward_negative (entry_price target_price stop_loss_price : Q) :
  0 < entry_price -> target_price < entry_price -> stop_loss_price < entry_price ->
  exists q,
    calculate_risk_reward entry_price target_price stop_loss_price = Ok (Fin q) /\
    q == (target_price - entry_price) / (entry_price - stop_loss_price) /\
    q < 0.
Proof.
  intros He Ht Hs.
  exists ((target_price - entry_price) / (entry_price - stop_loss_price)).
  split; [| split].
  - rewrite risk_reward_past_guard by lra.
    assert (L : Qltb 0 (entry_price - stop_loss_price) = true)
      by (apply Qltb_lt; lra).
    now rewrite L.
  - reflexivity.
  - apply Qdiv_neg_pos; lra.
Qed.

Lemma calculate_risk_reward_negative_witness :
  exists q, calculate_risk_reward 5 4 3 = Ok (Fin q) /\
            q == (4 - 5) / (5 - 3) /\ q < 0.
Proof.
  apply (calculate_risk_reward_negative 5 4 3); reflexivity.
Defined.

(** ** The position size *)

(** C2: when the entry price differs from the stop-loss price, the position
    size is the smaller of capital * tolerance / (entry - stop) and
    contracts * 100 * entry. *)
Theorem position_size_min (total_capital risk_tolerance entry_price
    stop_loss_price : Q) (contracts : Z) :
  ~ entry_price == stop_loss_price ->
  exists size,
    position_size total_capital risk_tolerance entry_price stop_loss_price
      contracts = Ok size /\
    size == Qmin (total_capital * risk_tolerance / (entry_price - stop_loss_price))
                 (inject_Z contracts * 100 * entry_price).
Proof.
  intros Hne. unfold position_size.
  rewrite py_div_defined by lra. cbn.
  eexists. split; [reflexivity |].
  rewrite py_min_Qmin. reflexivity.
Qed.

(** The sizing example of the specification: 10000 of capital at 1% risk,
    entry 5, stop 3, one contract, gives min(50, 500) = 50. *)
Lemma position_size_example :
  exists size, position_size 10000 0.01 5 3 1 = Ok size /\ size == 50.
Proof.
  destruct (position_size_min 10000 0.01 5 3 1) as (size & Hsize & Hmin).
  - discriminate.
  - exists size. split; [exact Hsize |].
    rewrite Hmin. reflexivity.
Defined.

Lemma risk_analysis_raises (i : trade_inputs) (e : env) (x : exn) :
  position_size (total_capital i) (risk_tolerance i) (entry_price i)
    (stop_loss_price i) (contracts i) = Raise x ->
  risk_analysis i e = Raise x.
Proof.
  intros H. unfold risk_analysis. rewrite H. reflexivity.
Qed.

(** C3: when the entry price equals the stop-loss price, sizing the position
    raises the division-by-zero error and returns no value at all; a rerun
    of the script with such inputs ends with that error, no handler catches
    it and the session state is left as it was. *)
Theorem position_size_division_by_zero (capital tolerance entry stop : Q)
    (n : Z) :
  entry == stop ->
  position_size capital tolerance entry stop n = Raise ZeroDivisionError /\
  ~ returns (position_size capital tolerance entry stop n) /\
  forall (i : trade_inputs) (e : env) (ss : gmap string (list trade)),
    total_capital i = capital ->
    risk_tolerance i = tolerance ->
    entry_price i = entry ->
    stop_loss_price i = stop ->
    contracts i = n ->
    run i e ss = (ss, Raise ZeroDivisionError).
Proof.
  intros Heq.
  assert (H : position_size capital tolerance entry stop n
              = Raise ZeroDivisionError).
  { unfold position_size. rewrite py_div_by_zero by lra. reflexivity. }
  split; [exact H |]. split.
  - intros [v Hv]. congruence.
  - intros i e ss <- <- <- <- <-. unfold run.
    rewrite (risk_analysis_raises i e ZeroDivisionError H). reflexivity.
Qed.

Lemma position_size_division_by_zero_witness :
  position_size 10000 0.01 5 5 1 = Raise ZeroDivisionError /\
  ~ returns (position_size 10000 0.01 5 5 1) /\
  run (inputs_with_stop 5) (click "03aa" 2) ∅ = (∅, Raise ZeroDivisionError).
Proof.
  destruct (position_size_division_by_zero 10000 0.01 5 5 1) as (H & Hn & Hrun).
  - reflexivity.
  - split; [exact H |]. split; [exact Hn |].
    apply Hrun; reflexivity.
Defined.



Module Binary64Facts.

Import PrimFloat.
Local Open Scope float_scope.


End Binary64Facts.

(** ** The Greeks *)

Section Greeks.

Variable option_type : string.
Variables stock_price strike_price time_to_expiry volatility interest_rate : Q.

Let g := calculate_greeks option_type stock_price strike_price
           time_to_expiry volatility interest_rate.

Lemma greeks_keys :
  dom g = {[ "Delta"; "Gamma"; "Theta"; "Vega"; "Rho" ]}.
Proof.
  unfold g, calculate_greeks.
  rewrite !dom_insert_L, dom_empty_L. set_solver.
Qed.

Lemma greeks_delta :
  g !! "Delta" = Some (if String.eqb option_type "Call" then 0.5 else -0.5).
Proof. reflexivity. Qed.

Lemma greeks_gamma : g !! "Gamma" = Some 0.1.
Proof. reflexivity. Qed.

Lemma greeks_theta : g !! "Theta" = Some (-0.01 * time_to_expiry).
Proof. reflexivity. Qed.

Lemma greeks_vega : g !! "Vega" = Some (0.2 * volatility).
Proof. reflexivity. Qed.

Lemma greeks_rho : g !! "Rho" = Some (0.05 * interest_rate).
Proof. reflexivity. Qed.

End Greeks.

(** C4: the Greeks form a mapping with exactly the keys Delta, Gamma, Theta,
    Vega and Rho; Delta is 0.5 for a call and -0.5 for anything else, Gamma is
    0.1, Theta is -0.01 * time to expiry, Vega is 0.2 * volatility and Rho is
    0.05 * interest rate. *)
Theorem calculate_greeks_values (option_type : string)
    (stock_price strike_price time_to_expiry volatility interest_rate : Q) :
  let g := calculate_greeks option_type stock_price strike_price
             time_to_expiry volatility interest_rate in
  dom g = {[ "Delta"; "Gamma"; "Theta"; "Vega"; "Rho" ]} /\
  (option_type = "Call" -> g !! "Delta" = Some 0.5) /\
  (option_type <> "Call" -> g !! "Delta" = Some (-0.5)) /\
  g !! "Gamma" = Some 0.1 /\
  g !! "Theta" = Some (-0.01 * time_to_expiry) /\
  g !! "Vega" = Some (0.2 * volatility) /\
  g !! "Rho" = Some (0.05 * interest_rate).
Proof.
  cbv zeta. split; [apply greeks_keys |].
  split; [| split].
  - intros ->. reflexivity.
  - intros Hne. rewrite greeks_delta.
    apply String.eqb_neq in Hne. now rewrite Hne.
  - repeat split.
Qed.

(** A put with a year to expiry, 20% volatility and a 5% rate. *)
Lemma calculate_greeks_put :
  let g := calculate_greeks "Put" 100 100 1 0.2 0.05 in
  g !! "Delta" = Some (-0.5) /\ g !! "Theta" = Some (-0.01 * 1) /\
  g !! "Bogus" = None.
Proof.
  destruct (calculate_greeks_values "Put" 100 100 1 0.2 0.05)
    as (_ & _ & Hput & _ & Htheta & _).
  cbv zeta. split; [apply Hput; discriminate |].
  split; [exact Htheta | reflexivity].
Defined.

(** C10: the Greeks do not depend on the stock price or on the strike
    price: two calls that agree on the other four arguments return the same
    mapping. *)
Theorem calculate_greeks_ignores_prices (option_type : string)
    (time_to_expiry volatility interest_rate : Q)
    (stock_price strike_price stock_price' strike_price' : Q) :
  calculate_greeks option_type stock_price strike_price
    time_to_expiry volatility interest_rate =
  calculate_greeks option_type stock_price' strike_price'
    time_to_expiry volatility interest_rate.
Proof. reflexivity. Qed.

(** ** Totality of the two helpers *)

Lemma risk_reward_outcomes (entry target stop : Q) :
  let ratio := calculate_risk_reward entry target stop in
  ratio = Ok (Fin 0) \/
  ratio = Ok PosInf \/
  (0 < entry - stop /\
   py_div (target - entry) (entry - stop)
     = Ok ((target - entry) / (entry - stop)) /\
   ratio = Ok (Fin ((target - entry) / (entry - stop)))).
Proof.
  cbv zeta.
  destruct (Qeq_dec entry 0) as [He | He].
  { left. apply risk_reward_guard. now left. }
  destruct (Qeq_dec (target - entry) 0) as [Hr | Hr].
  { left. apply risk_reward_guard. now right. }
  rewrite risk_reward_past_guard by assumption.
  destruct (Qltb 0 (entry - stop)) eqn:L.
  - right. right. apply Qltb_lt in L.
    split; [exact L |]. split; [| reflexivity].
    apply py_div_defined. lra.
  - right. left. reflexivity.
Qed.

(** C6: both helpers return a value on every input.  Every key of the Greeks
    is bound whatever the arguments, and [calculate_risk_reward] never
    raises: it returns 0, infinity, or a quotient whose divisor is strictly
    positive, so its division cannot fail. *)
Theorem helpers_total (option_type : string)
    (stock_price strike_price time_to_expiry volatility interest_rate : Q)
    (entry_price target_price stop_loss_price : Q) :
  let g := calculate_greeks option_type stock_price strike_price
             time_to_expiry volatility interest_rate in
  let ratio := calculate_risk_reward entry_price target_price stop_loss_price in
  (forall key : string,
     key ∈ [ "Delta"; "Gamma"; "Theta"; "Vega"; "Rho" ] -> is_Some (g !! key)) /\
  returns ratio /\
  (ratio = Ok (Fin 0) \/
   ratio = Ok PosInf \/
   (0 < entry_price - stop_loss_price /\
    py_div (target_price - entry_price) (entry_price - stop_loss_price)
      = Ok ((target_price - entry_price) / (entry_price - stop_loss_price)) /\
    ratio = Ok (Fin ((target_price - entry_price) /
                     (entry_price - stop_loss_price))))).
Proof.
  cbv zeta. split; [| split].
  - intros key Hkey.
    repeat (apply elem_of_cons in Hkey as [-> | Hkey]);
      try (eexists; reflexivity).
    now apply elem_of_nil in Hkey.
  - destruct (risk_reward_outcomes entry_price target_price stop_loss_price)
      as [H | [H | (_ & _ & H)]]; rewrite H; eexists; reflexivity.
  - apply risk_reward_outcomes.
Qed.

(** ** The trade history across reruns *)

Section Ledger.

Implicit Types (ss : gmap string (list trade)) (rs : list (trade_inputs * env)).

Lemma trade_history_init ss : trade_history (init_history ss) = trade_history ss.
Proof.
  unfold init_history, trade_history.
  destruct (ss !! "trade_history") eqn:E.
  - now rewrite E.
  - now rewrite lookup_insert_eq.
Qed.

Lemma trade_history_save i e r ss :
  trade_history (save i e r ss) =
  trade_history ss ++ (if save_trade e then [make_trade i e r] else []).
Proof.
  unfold save. destruct (save_trade e).
  - unfold trade_history at 1. now rewrite lookup_insert_eq.
  - now rewrite app_nil_r.
Qed.

Lemma trade_history_run i e ss :
  trade_history (fst (run i e ss)) = trade_history ss ++ saved_trade (i, e).
Proof.
  unfold run, saved_trade. cbn [fst snd].
  destruct (risk_analysis i e) as [r | x]; cbn [fst].
  - now rewrite trade_history_save, trade_history_init.
  - now rewrite app_nil_r.
Qed.

Lemma trade_history_run_all rs ss :
  trade_history (run_all rs ss) = trade_history ss ++ flat_map saved_trade rs.
Proof.
  revert ss. induction rs as [| [i e] rs IH]; intros ss; cbn [run_all flat_map].
  - now rewrite app_nil_r.
  - rewrite IH, trade_history_run. now rewrite <- app_assoc.
Qed.





Lemma shown_history_is_history ss h :
  shown_history ss = Some h -> h = trade_history ss /\ h <> [].
Proof.
  unfold shown_history. destruct (trade_history ss) eqn:E; [discriminate |].
  intros [= <-]. split; [reflexivity | discriminate].
Qed.

End Ledger.

(** ** The report does not depend on the session *)

Lemma risk_analysis_today (i : trade_inputs) (e e' : env) :
  today e' = today e -> risk_analysis i e' = risk_analysis i e.
Proof.
  intros H. unfold risk_analysis, time_to_expiry. now rewrite H.
Qed.

Lemma run_report (i : trade_inputs) (e : env) (ss : gmap string (list trade)) :
  report_of (snd (run i e ss)) = risk_analysis i e.
Proof.
  unfold run. destruct (risk_analysis i e); reflexivity.
Qed.

(** C7: the report of a rerun is a function of the trade inputs (with the
    day that fixes the time to expiry) alone: two reruns with the same inputs
    give the same report, or the same error, whatever the session state each
    one starts from, whatever was saved in between, and whatever the click,
    the identifier and the clock of each. *)
Theorem risk_report_deterministic (i : trade_inputs) (e e' : env)
    (ss ss' : gmap string (list trade)) (rs : list (trade_inputs * env)) :
  today e' = today e ->
  report_of (snd (run i e' ss')) = report_of (snd (run i e ss)) /\
  report_of (snd (run i e' (run_all rs (fst (run i e ss)))))
    = report_of (snd (run i e ss)).
Proof.
  intros H. rewrite !run_report. split; now apply risk_analysis_today.
Qed.

Lemma risk_report_sample_session :
  report_of (snd (run default_inputs idle
                    (run_all sample_session
                       (fst (run default_inputs (click "6f1c" 1) ∅)))))
  = report_of (snd (run default_inputs (click "6f1c" 1) ∅)).
Proof.
  apply (risk_report_deterministic default_inputs (click "6f1c" 1) idle ∅ ∅
           sample_session).
  reflexivity.
Defined.

(** * Further properties of the script *)

(** ** When a rerun fails *)

Section Reruns.

Variables (i : trade_inputs) (e : env).

Lemma risk_reward_returns (entry target stop : Q) :
  exists ratio, calculate_risk_reward entry target stop = Ok ratio.
Proof.
  destruct (risk_reward_outcomes entry target stop) as [H | [H | (_ & _ & H)]];
    rewrite H; eexists; reflexivity.
Qed.

(** The rerun up to line 60, when the position can be sized. *)
Lemma risk_analysis_sized :
  ~ entry_price i == stop_loss_price i ->
  exists size ratio,
    position_size (total_capital i) (risk_tolerance i) (entry_price i)
      (stop_loss_price i) (contracts i) = Ok size /\
    calculate_risk_reward (entry_price i) (take_profit_price i)
      (stop_loss_price i) = Ok ratio /\
    size = py_min (max_risk (total_capital i) (risk_tolerance i) /
                   (entry_price i - stop_loss_price i))
                  (inject_Z (contracts i) * 100 * entry_price i) /\
    risk_analysis i e =
      in_contracts ← py_div size (100 * entry_price i);
      Ok {| greeks := calculate_greeks (option_type i) (stock_price i)
                        (strike_price i) (time_to_expiry i e) (volatility i)
                        (interest_rate i);
            risk_reward_ratio := ratio;
            position_size_dollars := size;
            position_size_contracts := in_contracts;
            max_risk_dollars := max_risk (total_capital i) (risk_tolerance i);
            time_to_expiry_years := time_to_expiry i e |}.
Proof.
  intros Hne.
  destruct (risk_reward_returns (entry_price i) (take_profit_price i)
              (stop_loss_price i)) as [ratio Hratio].
  eexists. exists ratio. unfold risk_analysis, position_size.
  rewrite py_div_defined by lra. rewrite Hratio. cbn.
  repeat split; reflexivity.
Qed.

End Reruns.

Lemma risk_analysis_returns_inputs (i : trade_inputs) (e : env) :
  returns (risk_analysis i e) <->
  ~ entry_price i == 0 /\ ~ entry_price i == stop_loss_price i.
Proof.
  destruct (Qeq_dec (entry_price i) (stop_loss_price i)) as [Hs | Hs].
  { assert (H : risk_analysis i e = Raise ZeroDivisionError).
    { apply risk_analysis_raises. unfold position_size.
      rewrite py_div_by_zero by lra. reflexivity. }
    rewrite H. split.
    - intros [r Hr]. discriminate.
    - intros [_ Hne]. contradiction. }
  destruct (risk_analysis_sized i e Hs) as (size & ratio & _ & _ & _ & Hrun).
  rewrite Hrun.
  destruct (Qeq_dec (entry_price i) 0) as [H0 | H0].
  - rewrite py_div_by_zero by lra. split.
    + intros [r Hr]. discriminate.
    + intros [Hne _]. contradiction.
  - rewrite py_div_defined by lra. split.
    + intros _. split; assumption.
    + intros _. eexists. reflexivity.
Qed.

(** X1: a rerun draws its page exactly when the entry price is neither zero
    nor equal to the stop-loss price; in every other case it ends with a
    division by zero. *)
Theorem risk_analysis_returns_iff (i : trade_inputs) (e : env) :
  returns (risk_analysis i e) <->
  ~ entry_price i == 0 /\ ~ entry_price i == stop_loss_price i.
Proof. apply risk_analysis_returns_inputs. Qed.

(** X2: with a zero entry price and a non-zero stop-loss the position is
    sized and the ratio is 0, but the rerun still ends with a division by
    zero, at the line that prints the size in contracts; the session state
    is left as it was, so nothing can be saved. *)
Theorem zero_entry_price_raises (i : trade_inputs) (e : env)
    (ss : gmap string (list trade)) :
  entry_price i == 0 -> ~ stop_loss_price i == 0 ->
  returns (position_size (total_capital i) (risk_tolerance i) (entry_price i)
             (stop_loss_price i) (contracts i)) /\
  calculate_risk_reward (entry_price i) (take_profit_price i)
    (stop_loss_price i) = Ok (Fin 0) /\
  run i e ss = (ss, Raise ZeroDivisionError).
Proof.
  intros H0 Hs.
  assert (Hne : ~ entry_price i == stop_loss_price i) by lra.
  destruct (risk_analysis_sized i e Hne) as (size & ratio & Hsize & _ & _ & Hrun).
  split; [exists size; exact Hsize |].
  split; [apply risk_reward_guard; now left |].
  unfold run. rewrite Hrun, py_div_by_zero by lra. reflexivity.
Qed.

Lemma zero_entry_price_raises_witness :
  run free_inputs (click "77d0" 9) ∅ = (∅, Raise ZeroDivisionError).
Proof.
  apply (zero_entry_price_raises free_inputs (click "77d0" 9) ∅).
  - reflexivity.
  - discriminate.
Defined.

(** ** Reading the ratio *)

Section Ratio.

Lemma Qdiv_zero_num (x y : Q) : 0 < y -> x / y == 0 -> x == 0.
Proof.
  intros Hy H.
  assert (Hx : x == x / y * y) by (field; lra).
  rewrite Hx, H. lra.
Qed.

End Ratio.

(** X6: the ratio is zero only in the two degenerate cases of the guard: a
    finite ratio equal to 0 is returned exactly when the entry price is zero
    or the target equals the entry price. *)
Theorem risk_reward_zero_iff (entry_price target_price stop_loss_price : Q) :
  (exists q, calculate_risk_reward entry_price target_price stop_loss_price
               = Ok (Fin q) /\ q == 0) <->
  entry_price == 0 \/ target_price == entry_price.
Proof.
  split.
  - intros (q & Hq & Hz).
    destruct (Qeq_dec entry_price 0) as [He | He]; [now left |].
    destruct (Qeq_dec (target_price - entry_price) 0) as [Hr | Hr];
      [right; lra |].
    rewrite risk_reward_past_guard in Hq by assumption.
    destruct (Qltb 0 (entry_price - stop_loss_price)) eqn:L; [| discriminate].
    apply Qltb_lt in L. injection Hq as Hq. rewrite <- Hq in Hz.
    apply Qdiv_zero_num in Hz; [contradiction | exact L].
  - intros H. exists 0. split; [| reflexivity].
    apply risk_reward_guard. destruct H as [H | H]; [now left | right; lra].
Qed.

(** ** More on the session state *)

Section Session.

Implicit Types (ss : gmap string (list trade)) (rs : list (trade_inputs * env)).

Lemma run_other_keys i e ss (k : string) :
  k ≠ "trade_history" -> fst (run i e ss) !! k = ss !! k.
Proof.
  intros Hk. unfold run.
  destruct (risk_analysis i e) as [r | x]; cbn [fst]; [| reflexivity].
  assert (Hinit : init_history ss !! k = ss !! k).
  { unfold init_history. destruct (ss !! "trade_history"); [reflexivity |].
    now rewrite lookup_insert_ne. }
  unfold save. destruct (save_trade e); [| exact Hinit].
  now rewrite lookup_insert_ne.
Qed.

Lemma run_sets_history i e ss :
  returns (snd (run i e ss)) -> is_Some (fst (run i e ss) !! "trade_history").
Proof.
  unfold run. destruct (risk_analysis i e) as [r | x]; cbn [fst snd].
  - intros _. unfold save. destruct (save_trade e).
    + rewrite lookup_insert_eq. eexists. reflexivity.
    + unfold init_history. destruct (ss !! "trade_history") eqn:E.
      * rewrite E. eexists. reflexivity.
      * rewrite lookup_insert_eq. eexists. reflexivity.
  - intros [p Hp]. discriminate.
Qed.

Lemma saved_trade_date (r : trade_inputs * env) :
  map date (saved_trade r) = if saves r then [now r.2] else [].
Proof.
  unfold saved_trade, saves.
  destruct (risk_analysis r.1 r.2); [destruct (save_trade r.2) |]; reflexivity.
Qed.

Lemma saved_trade_dates rs :
  map date (flat_map saved_trade rs) = drawn_dates rs.
Proof.
  unfold drawn_dates. induction rs as [| r rs IH]; [reflexivity |].
  cbn [flat_map]. rewrite map_app, IH, filter_cons, saved_trade_date.
  destruct (saves r); destruct (decide _); try congruence; reflexivity.
Qed.

Lemma sorted_map_filter {A : Type} (f : A -> Z) (P : A -> Prop)
    `{!forall x, Decision (P x)} (l : list A) :
  StronglySorted Z.le (map f l) -> StronglySorted Z.le (map f (filter P l)).
Proof.
  induction l as [| a l IH]; [intros _; constructor |].
  cbn [map]. intros Hs. apply StronglySorted_inv in Hs as [Hs Hall].
  rewrite filter_cons. destruct (decide (P a)); [| now apply IH].
  cbn [map]. constructor; [now apply IH |].
  rewrite Forall_forall in Hall |- *.
  intros z Hz. apply Hall.
  apply list_elem_of_fmap in Hz as (x & -> & Hx).
  apply list_elem_of_fmap. exists x. split; [reflexivity |].
  apply list_elem_of_filter in Hx as [_ Hx]. exact Hx.
Qed.

Lemma saved_trade_entry (r : trade_inputs * env) :
  Forall (fun t => ~ trade_entry_price t == 0) (saved_trade r).
Proof.
  unfold saved_trade.
  destruct (risk_analysis r.1 r.2) as [rep | x] eqn:Hr; [| constructor].
  destruct (save_trade r.2); [| constructor].
  constructor; [| constructor]. cbn.
  assert (Hret : returns (risk_analysis r.1 r.2)) by (exists rep; exact Hr).
  now apply risk_analysis_returns_inputs in Hret as [H0 _].
Qed.











End Session.




(** X11: a session touches no entry of the session state but the trade
    history: every other key holds after any number of reruns what it held
    before, and a rerun that draws its page leaves the history key set. *)
Theorem session_state_frame (rs : list (trade_inputs * env))
    (ss : gmap string (list trade)) :
  (forall k : string, k ≠ "trade_history" -> run_all rs ss !! k = ss !! k) /\
  (forall (i : trade_inputs) (e : env),
     returns (snd (run i e ss)) ->
     is_Some (fst (run i e ss) !! "trade_history")).
Proof.
  split; [| intros i e; apply run_sets_history].
  intros k Hk. revert ss. induction rs as [| [i e] rs IH]; intros ss.
  - reflexivity.
  - cbn [run_all]. rewrite IH. now apply run_other_keys.
Qed.

(** X12: a rerun that draws its page with "Save Trade" clicked puts the new
    trade last in the history, after the trades already there, and the table
    of that very page shows it; the trade carries the identifier and the time
    of the rerun and the entry price and position size of the page. *)
Theorem save_then_show (i : trade_inputs) (e : env) (r : risk_report)
    (ss : gmap string (list trade)) :
  risk_analysis i e = Ok r -> save_trade e = true ->
  let ss' := fst (run i e ss) in
  let t := make_trade i e r in
  trade_history ss' = trade_history ss ++ [t] /\
  last (trade_history ss') = Some t /\
  snd (run i e ss) =
    Ok {| report := r; history_table := Some (trade_history ss ++ [t]) |} /\
  trade_id t = uuid4 e /\ date t = now e /\
  trade_entry_price t = entry_price i /\
  trade_position_size t = position_size_dollars r.
Proof.
  intros Hr Hsave. cbv zeta.
  assert (H : trade_history (fst (run i e ss))
              = trade_history ss ++ [make_trade i e r]).
  { rewrite trade_history_run. unfold saved_trade. cbn [fst snd].
    now rewrite Hr, Hsave. }
  split; [exact H |].
  split; [rewrite H; apply last_snoc |].
  split; [| repeat split].
  unfold run in *. rewrite Hr in *. cbn [fst snd] in *.
  unfold shown_history. rewrite H.
  destruct (trade_history ss); reflexivity.
Qed.

Lemma save_then_show_witness :
  exists t, last (trade_history (fst (run default_inputs (click "6f1c" 1) ∅)))
            = Some t /\ trade_id t = "6f1c".
Proof.
  destruct (risk_analysis default_inputs (click "6f1c" 1)) as [r | x] eqn:Hr.
  - destruct (save_then_show default_inputs (click "6f1c" 1) r ∅ Hr eq_refl)
      as (_ & Hlast & _ & Hid & _).
    eexists. split; [exact Hlast | exact Hid].
  - vm_compute in Hr. discriminate.
Defined.

(** X13: no trade with a zero entry price is ever saved: if the history
    holds none before a session, it holds none after it. *)
Theorem saved_entry_price_nonzero (rs : list (trade_inputs * env))
    (ss : gmap string (list trade)) :
  Forall (fun t => ~ trade_entry_price t == 0) (trade_history ss) ->
  Forall (fun t => ~ trade_entry_price t == 0) (trade_history (run_all rs ss)).
Proof.
  intros Hold. rewrite trade_history_run_all.
  apply Forall_app. split; [exact Hold |].
  induction rs as [| r rs IH]; [constructor |].
  cbn [flat_map]. apply Forall_app. split; [apply saved_trade_entry | exact IH].
Qed.

Lemma saved_entry_price_nonzero_witness :
  Forall (fun t => ~ trade_entry_price t == 0)
    (trade_history (run_all ((free_inputs, click "77d0" 9) :: sample_session) ∅)).
Proof.
  apply (saved_entry_price_nonzero
           ((free_inputs, click "77d0" 9) :: sample_session) ∅).
  constructor.
Defined.

(** X14: when the clock readings of the reruns of a session never go back,
    the dates of the saved trades are in non-decreasing order: the history
    is sorted by date, oldest first. *)
Theorem history_sorted_by_date (rs : list (trade_inputs * env)) :
  StronglySorted Z.le (map (fun r => now (snd r)) rs) ->
  StronglySorted Z.le (map date (trade_history (run_all rs ∅))).
Proof.
  intros Hclock. rewrite trade_history_run_all. cbn [app].
  change (trade_history ∅) with (@nil trade). cbn [app].
  rewrite saved_trade_dates. unfold drawn_dates.
  now apply sorted_map_filter.
Qed.

Lemma history_sorted_by_date_witness :
  StronglySorted Z.le
    (map date (trade_history
       (run_all [ (default_inputs, click "6f1c" 1);
                  (inputs_with_stop 5, click "03aa" 2);
                  (inputs_with_stop 4, click "b2e7" 2) ] ∅))).
Proof.
  apply (history_sorted_by_date
           [ (default_inputs, click "6f1c" 1);
             (inputs_with_stop 5, click "03aa" 2);
             (inputs_with_stop 4, click "b2e7" 2) ]).
  cbn. repeat constructor; lia.
Defined.

(** ** The position for a stop below the entry *)

Lemma py_min_mono_l (a a' b : Q) : a <= a' -> py_min a b <= py_min a' b.
Proof.
  intros Hle. unfold py_min.
  destruct (Qltb b a) eqn:E; destruct (Qltb b a') eqn:E';
    try apply Qltb_lt in E; try apply Qltb_ge in E;
    try apply Qltb_lt in E'; try apply Qltb_ge in E'; lra.
Qed.

(** X16: with the stop-loss below the entry price and nothing negative
    among capital, tolerance, entry price and contracts, the position size
    is not negative; it is zero when the capital or the tolerance is zero. *)
Theorem position_size_nonnegative (total_capital risk_tolerance entry_price
    stop_loss_price : Q) (contracts : Z) :
  0 <= total_capital -> 0 <= risk_tolerance -> (0 <= contracts)%Z ->
  0 <= entry_price -> stop_loss_price < entry_price ->
  exists size,
    position_size total_capital risk_tolerance entry_price stop_loss_price
      contracts = Ok size /\
    0 <= size /\
    (total_capital == 0 \/ risk_tolerance == 0 -> size == 0).
Proof.
  intros Hc Ht Hn He Hs. unfold position_size.
  rewrite py_div_defined by lra. cbn.
  eexists. split; [reflexivity |].
  set (from_risk := max_risk total_capital risk_tolerance /
                    (entry_price - stop_loss_price)).
  set (holding := inject_Z contracts * 100 * entry_price).
  assert (Hbudget : 0 <= max_risk total_capital risk_tolerance)
    by (unfold max_risk; nra).
  assert (Hrisk : 0 <= from_risk)
    by (apply Qle_shift_div_l; lra).
  assert (Hhold : 0 <= holding).
  { assert (0 <= inject_Z contracts)
      by (change 0 with (inject_Z 0); now rewrite <- Zle_Qle).
    unfold holding. nra. }
  split.
  - unfold py_min. destruct (Qltb holding from_risk); assumption.
  - intros Hzero.
    assert (Hb0 : max_risk total_capital risk_tolerance == 0).
    { unfold max_risk. destruct Hzero as [H | H]; rewrite H; ring. }
    assert (Hf0 : from_risk == 0).
    { unfold from_risk. rewrite Hb0. field. lra. }
    pose proof (py_min_le_l from_risk holding) as Hle.
    assert (0 <= py_min from_risk holding)
      by (unfold py_min; destruct (Qltb holding from_risk); assumption).
    lra.
Qed.

Lemma position_size_nonnegative_witness :
  exists size, position_size 0 0.01 5 3 1 = Ok size /\ 0 <= size /\ size == 0.
Proof.
  destruct (position_size_nonnegative 0 0.01 5 3 1)
    as (size & Hsize & Hpos & Hzero); try discriminate.
  - reflexivity.
  - exists size. split; [exact Hsize |]. split; [exact Hpos |].
    apply Hzero. left. reflexivity.
Defined.

(** X17: with the stop-loss below the entry price and a tolerance that is
    not negative, more capital never sizes a smaller position. *)
Theorem position_size_monotone (capital capital' risk_tolerance entry_price
    stop_loss_price : Q) (contracts : Z) :
  stop_loss_price < entry_price -> 0 <= risk_tolerance ->
  capital <= capital' ->
  exists size size',
    position_size capital risk_tolerance entry_price stop_loss_price
      contracts = Ok size /\
    position_size capital' risk_tolerance entry_price stop_loss_price
      contracts = Ok size' /\
    size <= size'.
Proof.
  intros Hs Ht Hle. unfold position_size.
  rewrite !py_div_defined by lra. cbn.
  do 2 eexists. split; [reflexivity |]. split; [reflexivity |].
  apply py_min_mono_l.
  apply Qle_shift_div_l; [lra |].
  assert (Hq : max_risk capital risk_tolerance /
               (entry_price - stop_loss_price) *
               (entry_price - stop_loss_price)
               == max_risk capital risk_tolerance) by (field; lra).
  rewrite Hq. unfold max_risk. nra.
Qed.

Lemma position_size_monotone_witness :
  exists size size',
    position_size 10000 0.01 5 3 1 = Ok size /\
    position_size 20000 0.01 5 3 1 = Ok size' /\
    size <= size'.
Proof.
  apply (position_size_monotone 10000 20000 0.01 5 3 1);
    [reflexivity | discriminate | discriminate].
Defined.
